(** * convert_config.py: Pi-hole teleporter archive to AdGuard report

    A shallow embedding of [src/convert_config.py] and the properties of
    its list readers, liveness filter, rule builder and cleanup path.

    Layout: Python values and exceptions, the string helpers the script
    calls, the world the script runs in (archives, temporary directories,
    standard output), the functions of the script in source order, and
    then the lemmas and theorems.

    The script is read as Python 3.12 or later: [extractall] takes a
    [filter] argument and the report uses a backslash inside an f-string
    expression.  Strings are sequences of bytes (UTF-8); the only
    characters the script looks at, backslash, slash and line feed, are
    single bytes. *)

From Stdlib Require Import ZArith String Ascii DecimalString.
From Stdlib Require Import Floats.PrimFloat.
From stdpp Require Import base option list gmap strings.

Set Warnings "-register-all".
Set Default Proof Using "Type".

(** ** Values produced by [json.load] *)

(** Python objects a JSON document decodes to: [None], [bool], [int]
    (unbounded), [float] (IEEE binary64), [str], [list] and [dict]. *)
Inductive json : Type :=
| JNull
| JBool (b : bool)
| JInt (n : Z)
| JFloat (f : float)
| JStr (s : string)
| JArr (items : list json)
| JObj (fields : gmap string json).

(** ** Exceptions and results *)

Inductive exn : Type :=
| FileNotFoundError
| ReadError
| JSONDecodeError
| KeyError (key : string)
| TypeError
| AttributeError
| SystemExit (code : Z).

Inductive result (A : Type) : Type :=
| Ok (a : A)
| Raise (e : exn).
Arguments Ok {A} a.
Arguments Raise {A} e.

#[global] Instance result_ret : MRet result := λ A a, Ok a.
#[global] Instance result_bind : MBind result := λ A B f r,
  match r with
  | Ok a => f a
  | Raise e => Raise e
  end.

Definition raised {A} (r : result A) : Prop := ∃ e, r = Raise e.

(** ** Python operators on decoded values *)

(** [e[key]] with a string key: only a dict can be subscripted by a string. *)
Definition getitem (e : json) (key : string) : result json :=
  match e with
  | JObj fields =>
      match fields !! key with
      | Some v => Ok v
      | None => Raise (KeyError key)
      end
  | _ => Raise TypeError
  end.

(** Truth value of an object, as tested by [if e["enabled"]]. *)
Definition truthy (v : json) : bool :=
  match v with
  | JNull => false
  | JBool b => b
  | JInt n => negb (n =? 0)%Z
  | JFloat f => negb (PrimFloat.eqb f 0)
  | JStr s => negb (String.eqb s "")
  | JArr items => negb (bool_decide (items = []))
  | JObj fields => negb (bool_decide (fields = ∅))
  end.

(** [v == 1]: numbers compare by value across [bool], [int] and [float];
    every other object is different from 1. *)
Definition eq_one (v : json) : bool :=
  match v with
  | JBool b => b
  | JInt n => (n =? 1)%Z
  | JFloat f => PrimFloat.eqb f 1
  | _ => false
  end.

(** [for e in v]: a list yields its items, a dict its keys, a string its
    characters; the other objects are not iterable.  The order in which a
    dict yields its keys is the order of [map_to_list]. *)
Definition iter (v : json) : result (list json) :=
  match v with
  | JArr items => Ok items
  | JObj fields => Ok ((λ kv, JStr kv.1) <$> map_to_list fields)
  | JStr s => Ok ((λ c, JStr (String c "")) <$> list_ascii_of_string s)
  | _ => Raise TypeError
  end.

(** [[elt(e) for e in l if cond(e)]]: for each element the condition is
    evaluated first, the element expression only when it holds, and the
    first exception ends the comprehension. *)
Fixpoint list_comp {A B} (cond : A → result bool) (elt : A → result B)
    (l : list A) : result (list B) :=
  match l with
  | [] => Ok []
  | e :: l' =>
      b ← cond e;
      if (b : bool) then
        x ← elt e;
        xs ← list_comp cond elt l';
        Ok (x :: xs)
      else list_comp cond elt l'
  end.

(** ** Strings *)

Definition LF : string := String "010"%char "".

(** [new] before every character and at the end: [s.replace("", new)]. *)
Fixpoint interleave (new s : string) : string :=
  match s with
  | "" => new
  | String c s' => new +:+ String c (interleave new s')
  end.

(** Left-to-right scan of [str.replace]; [skip] counts the characters of
    a matched occurrence that are still to be dropped. *)
Fixpoint replace_from (old new : string) (skip : nat) (s : string) : string :=
  match s with
  | "" => ""
  | String c s' =>
      match skip with
      | S k => replace_from old new k s'
      | O =>
          if String.prefix old s
          then new +:+ replace_from old new (String.length old - 1) s'
          else String c (replace_from old new 0 s')
      end
  end.

(** [s.replace(old, new)]: every non-overlapping occurrence, leftmost first. *)
Definition replace (old new s : string) : string :=
  match old with
  | "" => interleave new s
  | _ => replace_from old new 0 s
  end.

(** [url.replace(old, new)] on a decoded value: only [str] has the method. *)
Definition replace_method (v : json) (old new : string) : result string :=
  match v with
  | JStr s => Ok (replace old new s)
  | _ => Raise AttributeError
  end.

(** [old in s]. *)
Fixpoint contains (old s : string) : bool :=
  String.prefix old s ||
  match s with
  | "" => false
  | String _ s' => contains old s'
  end.

(** [sep.join(parts)]. *)
Fixpoint join (sep : string) (parts : list string) : string :=
  match parts with
  | [] => ""
  | [p] => p
  | p :: ps => p +:+ sep +:+ join sep ps
  end.

(** [s.split("\n")]. *)
Fixpoint lines (s : string) : list string :=
  match s with
  | "" => [""]
  | String c s' =>
      if Ascii.eqb c "010" then "" :: lines s'
      else match lines s' with
           | l :: ls => String c l :: ls
           | [] => [String c ""]
           end
  end.

(** Text made of the given lines, each one ended by a line feed. *)
Definition unlines (ls : list string) : string :=
  foldr (λ l acc, l +:+ LF +:+ acc) "" ls.

(** The escape sequence the script undoes and what it becomes. *)
Definition escaped_slash : string := "\/".
Definition slash : string := "/".

(** ** Entries kept by the readers *)

(** The dict [{"address": ..., "comment": ...}] built by [read_adlist]. *)
Record AdlistEntry : Type := mkAdlistEntry {
  address : json;
  adlist_comment : json
}.

(** The dict [{"domain": ..., "comment": ...}] built by the four
    domain-list readers. *)
Record DomainEntry : Type := mkDomainEntry {
  domain : json;
  comment : json
}.

(** ** The world the script runs in *)

(** What [json.load] makes of a file: a document, or a decoding error. *)
Inductive file : Type :=
| JsonText (doc : json)
| Undecodable.

(** What [tarfile.open(..., "r:gz")] and [extractall] make of a path that
    exists: a set of members, or a read error. *)
Inductive archive : Type :=
| TarGz (members : gmap string file)
| NotTarGz.

Record world : Type := mkWorld {
  archives : gmap string archive;
  tmpdirs : gmap string (gmap string file);
  stdout : string
}.

(** Computations of the script: they read and change the world and end
    with a value or an exception. *)
Definition M (A : Type) : Type := world → result A * world.

#[global] Instance M_ret : MRet M := λ A a w, (Ok a, w).
#[global] Instance M_bind : MBind M := λ A B f m w,
  match m w with
  | (Ok a, w') => f a w'
  | (Raise e, w') => (Raise e, w')
  end.

Definition lift {A} (r : result A) : M A := λ w, (r, w).
Definition throw {A} (e : exn) : M A := λ w, (Raise e, w).

(** [try: body finally: cleanup]. *)
Definition try_finally {A} (body : M A) (cleanup : M unit) : M A := λ w,
  match body w with
  | (r, w') =>
      match cleanup w' with
      | (Ok _, w'') => (r, w'')
      | (Raise e, w'') => (Raise e, w'')
      end
  end.

(** [for x in l: body(x)]. *)
Fixpoint for_each {A} (l : list A) (body : A → M unit) : M unit :=
  match l with
  | [] => mret ()
  | x :: l' => body x;; for_each l' body
  end.

(** [print(s)]. *)
Definition print (s : string) : M unit := λ w,
  (Ok (), mkWorld (archives w) (tmpdirs w) (stdout w +:+ s +:+ LF)).

(** [tempfile.mkdtemp()]: a new, empty directory under a name not in use. *)
Definition mkdtemp : M string := λ w,
  let temp_dir := fresh (dom (tmpdirs w)) in
  (Ok temp_dir, mkWorld (archives w) (<[temp_dir := ∅]> (tmpdirs w)) (stdout w)).

(** [with tarfile.open(archive_path, "r:gz") as tar:
       tar.extractall(path=temp_dir, filter="tar")]. *)
Definition extractall (archive_path temp_dir : string) : M unit := λ w,
  match archives w !! archive_path with
  | None => (Raise FileNotFoundError, w)
  | Some NotTarGz => (Raise ReadError, w)
  | Some (TarGz members) =>
      (Ok (), mkWorld (archives w)
                      (<[temp_dir := members ∪ default ∅ (tmpdirs w !! temp_dir)]>
                         (tmpdirs w))
                      (stdout w))
  end.

(** [with open(os.path.join(temp_dir, name)) as f: json.load(f)]. *)
Definition load (temp_dir name : string) : M json := λ w,
  match tmpdirs w !! temp_dir ≫= (.!! name) with
  | None => (Raise FileNotFoundError, w)
  | Some Undecodable => (Raise JSONDecodeError, w)
  | Some (JsonText doc) => (Ok doc, w)
  end.

(** [shutil.rmtree(temp_dir)]. *)
Definition rmtree (temp_dir : string) : M unit := λ w,
  match tmpdirs w !! temp_dir with
  | None => (Raise FileNotFoundError, w)
  | Some _ => (Ok (), mkWorld (archives w) (delete temp_dir (tmpdirs w)) (stdout w))
  end.

(** Outcome of [requests.head(url)]: a response with its status code, or
    an exception of the [RequestException] family. *)
Inductive head_outcome : Type :=
| Response (status_code : Z)
| RequestException.

(** ** Data for the examples *)

(** [str(v)] on [None], booleans and integers.  The examples contain no
    float, list or dict under a formatted key; for those this function
    returns the empty string. *)
Definition str_scalar (v : json) : string :=
  match v with
  | JNull => "None"
  | JBool true => "True"
  | JBool false => "False"
  | JInt n => NilZero.string_of_int (Z.to_int n)
  | _ => ""
  end.

(** A network in which one list answers 200, one has moved and the other
    hosts cannot be reached. *)
Definition example_head (url : string) : head_outcome :=
  if String.eqb url "https://example.com/list.txt" then Response 200
  else if String.eqb url "https://example.com/moved.txt" then Response 301
  else RequestException.

Definition good_com : DomainEntry := mkDomainEntry (JStr "good.com") (JStr "ok").
Definition bad_regex : DomainEntry := mkDomainEntry (JStr "bad.*") (JStr "spam").

Definition record (key : string) (value text enabled : json) : json :=
  JObj {[ key := value; "comment" := text; "enabled" := enabled ]}.

(** Entries with an escaped address: one that answers 200, one that has
    moved, one that cannot be reached. *)
Definition live_list : AdlistEntry :=
  mkAdlistEntry (JStr "https:\/\/example.com\/list.txt") (JStr "live").
Definition moved_list : AdlistEntry :=
  mkAdlistEntry (JStr "https:\/\/example.com\/moved.txt") (JStr "moved").
Definition lost_list : AdlistEntry :=
  mkAdlistEntry (JStr "https:\/\/lost.example\/list.txt") (JStr "lost").

Definition example_adlist : list json :=
  [ record "address" (JStr "https:\/\/example.com\/list.txt") (JStr "live")
      (JBool true);
    record "address" (JStr "https:\/\/lost.example\/list.txt") (JStr "lost")
      (JBool true);
    record "address" (JStr "https:\/\/example.com\/off.txt") (JStr "off")
      (JBool false) ].

Definition example_blacklist_regex : list json :=
  [ record "domain" (JStr "bad.*") (JStr "spam") (JInt 1);
    record "domain" (JStr "old.*") (JStr "") (JInt 0) ].

(** The members of a teleporter archive. *)
Definition example_files : gmap string file :=
  {[ "adlist.json" := JsonText (JArr example_adlist);
     "whitelist.exact.json" :=
       JsonText (JArr [record "domain" (JStr "good.com") (JStr "ok") (JInt 1)]);
     "blacklist.exact.json" := JsonText (JArr []);
     "whitelist.regex.json" := JsonText (JArr []);
     "blacklist.regex.json" := JsonText (JArr example_blacklist_regex) ]}.

(** An adlist whose only record is disabled and has neither [address]
    nor [comment]. *)
Definition sparse_adlist : list json :=
  [ JObj {[ "enabled" := JBool false ]} ].

Definition sparse_files : gmap string file :=
  {[ "adlist.json" := JsonText (JArr sparse_adlist) ]}.

(** An archive without [adlist.json]. *)
Definition partial_files : gmap string file :=
  {[ "whitelist.exact.json" := JsonText (JArr []) ]}.

(** A machine with three archives, a file that is no archive, two
    extracted directories and nothing printed yet. *)
Definition example_world : world :=
  mkWorld {[ "teleporter.tar.gz" := TarGz example_files;
             "sparse.tar.gz" := TarGz sparse_files;
             "partial.tar.gz" := TarGz partial_files;
             "notes.txt" := NotTarGz ]}
          {[ "/tmp/tmp_full" := example_files;
             "/tmp/tmp_sparse" := sparse_files ]}
          "".

(** A directory whose files decode, but not to lists of records. *)
Definition odd_files : gmap string file :=
  {[ "adlist.json" := JsonText JNull;
     "whitelist.exact.json" := JsonText (JObj ∅);
     "blacklist.exact.json" := JsonText (JStr "[]");
     "whitelist.regex.json" := JsonText (JInt 3);
     "blacklist.regex.json" := JsonText (JObj {[ "domain" := JStr "x" ]}) ]}.

Definition odd_world : world :=
  mkWorld ∅ {[ "/tmp/tmp_odd" := odd_files ]} "".


(** A domain entry whose comment runs over two lines. *)
Definition two_line_comment : DomainEntry :=
  mkDomainEntry (JStr "ads.example") (JStr ("first" +:+ LF +:+ "second")).

(** ** The script *)

Section convert_config.

(** [str(v)] for a decoded value that is not a string ([None], numbers,
    lists, dicts): the text an f-string substitutes for it. *)
Variable str_value : json → string.

(** The network, as seen through [requests.head]. *)
Variable requests_head : string → head_outcome.

(** [f"{v}"]: a string is substituted as it is. *)
Definition format (v : json) : string :=
  match v with
  | JStr s => s
  | _ => str_value v
  end.

Definition unzip_tar_gz (archive_path : string) : M string :=
  temp_dir ← mkdtemp;
  extractall archive_path temp_dir;;
  mret temp_dir.

Definition read_adlist (temp_dir : string) : M (list AdlistEntry) :=
  adlist ← load temp_dir "adlist.json";
  lift (
    items ← iter adlist;
    list_comp
      (λ e, enabled ← getitem e "enabled"; Ok (truthy enabled))
      (λ e, a ← getitem e "address"; c ← getitem e "comment";
            Ok (mkAdlistEntry a c))
      items).

Definition read_whitelist_exact (temp_dir : string) : M (list DomainEntry) :=
  whitelist ← load temp_dir "whitelist.exact.json";
  lift (
    items ← iter whitelist;
    list_comp
      (λ e, enabled ← getitem e "enabled"; Ok (eq_one enabled))
      (λ e, d ← getitem e "domain"; c ← getitem e "comment";
            Ok (mkDomainEntry d c))
      items).

Definition read_blacklist_exact (temp_dir : string) : M (list DomainEntry) :=
  blacklist ← load temp_dir "blacklist.exact.json";
  lift (
    items ← iter blacklist;
    list_comp
      (λ e, enabled ← getitem e "enabled"; Ok (eq_one enabled))
      (λ e, d ← getitem e "domain"; c ← getitem e "comment";
            Ok (mkDomainEntry d c))
      items).

Definition read_whitelist_regex (temp_dir : string) : M (list DomainEntry) :=
  whitelist ← load temp_dir "whitelist.regex.json";
  lift (
    items ← iter whitelist;
    list_comp
      (λ e, enabled ← getitem e "enabled"; Ok (eq_one enabled))
      (λ e, d ← getitem e "domain"; c ← getitem e "comment";
            Ok (mkDomainEntry d c))
      items).

Definition read_blacklist_regex (temp_dir : string) : M (list DomainEntry) :=
  blacklist ← load temp_dir "blacklist.regex.json";
  lift (
    items ← iter blacklist;
    list_comp
      (λ e, enabled ← getitem e "enabled"; Ok (eq_one enabled))
      (λ e, d ← getitem e "domain"; c ← getitem e "comment";
            Ok (mkDomainEntry d c))
      items).

Definition test_url (url : json) : result bool :=
  new_url ← replace_method url escaped_slash slash;
  match requests_head new_url with
  | Response status_code => Ok (status_code =? 200)%Z
  | RequestException => Ok false
  end.

Definition filter_working_adlist (adlist : list AdlistEntry)
    : result (list AdlistEntry) :=
  list_comp (λ e, test_url (address e)) (λ e, Ok e) adlist.

Definition build_custom_filtering_rules
    (whitelist_exact blacklist_exact whitelist_regex blacklist_regex
       : list DomainEntry) : string :=
  let textblock := "" in
  let textblock := textblock +:+ ("! Whitelist" +:+ LF) in
  let textblock :=
    foldl (λ textblock entry,
             textblock +:+ ("# " +:+ format (comment entry) +:+ LF +:+
                            "@@|" +:+ format (domain entry) +:+ "^" +:+ LF))
          textblock whitelist_exact in
  let textblock :=
    foldl (λ textblock entry,
             textblock +:+ ("# " +:+ format (comment entry) +:+ LF +:+
                            "@@/" +:+ format (domain entry) +:+ "/" +:+ LF))
          textblock whitelist_regex in
  let textblock := textblock +:+ (LF +:+ LF) in
  let textblock := textblock +:+ ("! Blacklist" +:+ LF) in
  let textblock :=
    foldl (λ textblock entry,
             textblock +:+ ("# " +:+ format (comment entry) +:+ LF +:+
                            "|" +:+ format (domain entry) +:+ "^" +:+ LF))
          textblock blacklist_exact in
  let textblock :=
    foldl (λ textblock entry,
             textblock +:+ ("# " +:+ format (comment entry) +:+ LF +:+
                            "/" +:+ format (domain entry) +:+ "/" +:+ LF))
          textblock blacklist_regex in
  textblock.

(** The body of the [try] block of [main]. *)
Definition report (temp_dir : string) : M unit :=
  adlist ← read_adlist temp_dir;
  adlist ← lift (filter_working_adlist adlist);
  whitelist_exact ← read_whitelist_exact temp_dir;
  blacklist_exact ← read_blacklist_exact temp_dir;
  whitelist_regex ← read_whitelist_regex temp_dir;
  blacklist_regex ← read_blacklist_regex temp_dir;
  let custom_filtering_rules :=
    build_custom_filtering_rules
      whitelist_exact blacklist_exact whitelist_regex blacklist_regex in
  print ("Add each of the following blocklist to the DNS blocklists page:"
         +:+ LF +:+ LF);;
  for_each adlist (λ addlist_entry,
    print ("Name: " +:+ format (adlist_comment addlist_entry));;
    url ← lift (replace_method (address addlist_entry) escaped_slash slash);
    print ("URL: " +:+ url);;
    print (LF +:+ LF));;
  print ("Copy past this in the Custom filtering rules field:" +:+ LF +:+ LF);;
  print custom_filtering_rules.

Definition main (argv : list string) : M unit :=
  if bool_decide (length argv ≠ 2) then
    print "Usage: python3 convert_config.py <teleporter archive path>";;
    throw (SystemExit 1)
  else
    let archive_path := default "" (argv !! 1%nat) in
    temp_dir ← unzip_tar_gz archive_path;
    try_finally (report temp_dir) (rmtree temp_dir).

(** The module run as a script: [main()] and then [exit(0)]. *)
Definition script (argv : list string) : M unit :=
  main argv;;
  throw (SystemExit 0).

(** ** Statements the theorems compare the code with *)

(** The two lines an entry contributes to the rule block. *)
Definition rule_lines (opening closing : string) (entry : DomainEntry)
    : list string :=
  [ "# " +:+ format (comment entry);
    opening +:+ format (domain entry) +:+ closing ].

(** The rule block with [blank] empty lines between the whitelist part
    and the blacklist header. *)
Definition rule_block (blank : nat)
    (whitelist_exact blacklist_exact whitelist_regex blacklist_regex
       : list DomainEntry) : string :=
  unlines (["! Whitelist"]
           ++ (whitelist_exact ≫= rule_lines "@@|" "^")
           ++ (whitelist_regex ≫= rule_lines "@@/" "/")
           ++ replicate blank ""
           ++ ["! Blacklist"]
           ++ (blacklist_exact ≫= rule_lines "|" "^")
           ++ (blacklist_regex ≫= rule_lines "/" "/")).

(** The block as the template of the specification draws it: one empty
    line before the blacklist header. *)
Definition template_block := rule_block 1.

(** A source record and the entry a reader makes of it: the two values
    are those found under the two keys. *)
Definition adlist_projection (e : json) (out : AdlistEntry) : Prop :=
  getitem e "address" = Ok (address out) ∧
  getitem e "comment" = Ok (adlist_comment out).

Definition domain_projection (e : json) (out : DomainEntry) : Prop :=
  getitem e "domain" = Ok (domain out) ∧
  getitem e "comment" = Ok (comment out).

(** The value under ["enabled"] passes the reader's test. *)
Definition enabled_by (test : json → bool) (e : json) : bool :=
  match getitem e "enabled" with
  | Ok v => test v
  | Raise _ => false
  end.

(** A record with the three keys a reader may look up. *)
Definition complete (key : string) (e : json) : Prop :=
  ∃ fields, e = JObj fields ∧
    is_Some (fields !! key) ∧ is_Some (fields !! "comment") ∧
    is_Some (fields !! "enabled").

(** A record the comprehension of a reader stops at: ["enabled"] cannot
    be read, or the record passes the test and one of the two projected
    keys cannot be read. *)
Definition stops_reader (test : json → bool) (key : string) (e : json) : Prop :=
  raised (getitem e "enabled") ∨
  (enabled_by test e = true ∧
   (raised (getitem e key) ∨ raised (getitem e "comment"))).

(** A record without one of the expected keys. *)
Definition lacks_expected_key (key : string) (e : json) : Prop :=
  raised (getitem e key) ∨ raised (getitem e "comment") ∨
  raised (getitem e "enabled").


Definition string_address (e : AdlistEntry) : Prop :=
  ∃ s, address e = JStr s.

(** What a reader does with a file that decodes to a list of records:
    whenever it returns, it returns one entry per record that passes
    [test], in the order of the file, each entry holding the two values
    of its record; and it does return, leaving the world as it is, when
    the records are complete. *)
Definition keeps_enabled_records {B} (reader : string → M (list B))
    (name : string) (test : json → bool) (key : string)
    (projection : json → B → Prop)
    (w : world) (temp_dir : string) (files : gmap string file) : Prop :=
  ∀ recs,
    files !! name = Some (JsonText (JArr recs)) →
    (∀ out, (reader temp_dir w).1 = Ok out →
       Forall2 projection (List.filter (enabled_by test) recs) out) ∧
    (Forall (complete key) recs →
     ∃ out,
       reader temp_dir w = (Ok out, w) ∧
       Forall2 projection (List.filter (enabled_by test) recs) out).

(** When a reader raises: on a file that does not decode, and on a file
    that decodes to a list exactly when one of its records stops the
    comprehension. *)
Definition raises_at_stopping_records {B} (reader : string → M (list B))
    (name : string) (test : json → bool) (key : string)
    (w : world) (temp_dir : string) (files : gmap string file) : Prop :=
  (files !! name = Some Undecodable →
   reader temp_dir w = (Raise JSONDecodeError, w)) ∧
  (∀ recs,
     files !! name = Some (JsonText (JArr recs)) →
     (raised (reader temp_dir w).1 ↔ Exists (stops_reader test key) recs)).

(** A document that is a dict without keys or a string without
    characters: iterating it yields nothing. *)
Definition empty_container (doc : json) : bool :=
  match doc with
  | JObj fields => bool_decide (fields = ∅)
  | JStr s => String.eqb s ""
  | _ => false
  end.

(** What a reader does when its file is not in the directory, or the
    directory is not there. *)
Definition needs_file {B} (reader : string → M (list B)) (name : string)
    (w : world) (temp_dir : string) : Prop :=
  tmpdirs w !! temp_dir ≫= (.!! name) = None →
  reader temp_dir w = (Raise FileNotFoundError, w).

(** What a reader does with a document that is not a list: nothing to
    iterate gives the empty list, anything else a [TypeError]. *)
Definition rejects_other_documents {B} (reader : string → M (list B))
    (name : string) (w : world) (temp_dir : string)
    (files : gmap string file) : Prop :=
  ∀ doc,
    files !! name = Some (JsonText doc) →
    (∀ items, doc ≠ JArr items) →
    reader temp_dir w
    = (if empty_container doc then Ok [] else Raise TypeError, w).

(** The lines [main] prints for an entry of the filtered adlist. *)
Definition entry_lines (e : AdlistEntry) : list string :=
  [ "Name: " +:+ format (adlist_comment e);
    "URL: " +:+ match address e with
                | JStr s => replace escaped_slash slash s
                | _ => ""
                end;
    ""; ""; "" ].

(** The text of a complete report. *)
Definition report_text (adlist : list AdlistEntry)
    (custom_filtering_rules : string) : string :=
  unlines
    (["Add each of the following blocklist to the DNS blocklists page:";
      ""; ""]
     ++ (adlist ≫= entry_lines)
     ++ ["Copy past this in the Custom filtering rules field:"; ""; ""])
  +:+ custom_filtering_rules +:+ LF.

(** A world that differs from [w] by what has been printed. *)
Definition printed (w : world) (text : string) : world :=
  mkWorld (archives w) (tmpdirs w) (stdout w +:+ text).

(** An entry whose comment and domain are printed without a line
    feed. *)
Definition single_line (e : DomainEntry) : Prop :=
  contains LF (format (comment e)) = false ∧
  contains LF (format (domain e)) = false.


(** ** Lemmas on strings *)

Lemma append_nil_l (s : string) : "" +:+ s = s.
Proof. reflexivity. Qed.

Lemma append_cons (c : ascii) (s t : string) :
  String c s +:+ t = String c (s +:+ t).
Proof. reflexivity. Qed.

Lemma append_nil_r (s : string) : s +:+ "" = s.
Proof.
  induction s as [|c s IH]; [done|].
  by rewrite append_cons, IH.
Qed.

Lemma append_assoc (s1 s2 s3 : string) :
  (s1 +:+ s2) +:+ s3 = s1 +:+ (s2 +:+ s3).
Proof.
  induction s1 as [|c s1 IH]; [done|].
  by rewrite !append_cons, IH.
Qed.

Lemma unlines_nil : unlines [] = "".
Proof. reflexivity. Qed.

Lemma unlines_cons (l : string) (ls : list string) :
  unlines (l :: ls) = l +:+ LF +:+ unlines ls.
Proof. reflexivity. Qed.

Lemma unlines_app (l1 l2 : list string) :
  unlines (l1 ++ l2) = unlines l1 +:+ unlines l2.
Proof.
  induction l1 as [|l l1 IH]; [done|].
  rewrite <- app_comm_cons, !unlines_cons, IH.
  by rewrite !append_assoc.
Qed.

(** A loop that appends to [textblock] appends the text of its lines. *)
Lemma foldl_rule_lines (opening closing : string) (entries : list DomainEntry)
    (textblock : string) :
  foldl (λ textblock entry,
           textblock +:+ ("# " +:+ format (comment entry) +:+ LF +:+
                          opening +:+ format (domain entry) +:+ closing +:+ LF))
        textblock entries
  = textblock +:+ unlines (entries ≫= rule_lines opening closing).
Proof.
  revert textblock.
  induction entries as [|entry entries IH]; intros textblock.
  - change (textblock = textblock +:+ ""). by rewrite append_nil_r.
  - cbn [foldl]. rewrite IH, append_assoc. f_equal.
    change ((entry :: entries) ≫= rule_lines opening closing)
      with (rule_lines opening closing entry
              ++ (entries ≫= rule_lines opening closing)).
    unfold rule_lines at 2.
    rewrite <- !app_comm_cons, !unlines_cons, app_nil_l.
    by rewrite !append_assoc.
Qed.

Lemma lines_nil : lines "" = [""].
Proof. reflexivity. Qed.

Lemma lines_LF (s : string) : lines (LF +:+ s) = "" :: lines s.
Proof. reflexivity. Qed.

Lemma lines_nonempty (s : string) : lines s ≠ [].
Proof.
  induction s as [|c s IH]; [done|].
  cbn [lines]. destruct (Ascii.eqb c "010"); [done|].
  by destruct (lines s).
Qed.

(** Splitting at line feeds splits at the first one of [x +:+ LF +:+ rest]. *)
Lemma lines_app_LF (x rest : string) :
  lines (x +:+ LF +:+ rest) = lines x ++ lines rest.
Proof.
  induction x as [|c x IH]; [done|].
  rewrite append_cons. cbn [lines].
  destruct (Ascii.eqb c "010").
  - by rewrite IH.
  - rewrite IH. pose proof (lines_nonempty x).
    by destruct (lines x).
Qed.

Lemma lines_unlines (ls : list string) :
  lines (unlines ls) = (ls ≫= lines) ++ [""].
Proof.
  induction ls as [|l ls IH]; [done|].
  rewrite unlines_cons, lines_app_LF, IH.
  by rewrite (assoc_L (++)).
Qed.

(** Induction on strings two characters at a time, as [replace_from]
    consumes them. *)
Lemma string_ind2 (P : string → Prop) :
  P "" →
  (∀ c, P (String c "")) →
  (∀ c1 c2 s, P s → P (String c2 s) → P (String c1 (String c2 s))) →
  ∀ s, P s.
Proof.
  intros Hnil Hone Hstep s.
  cut (P s ∧ ∀ c, P (String c s)); [by intros [? _]|].
  induction s as [|c s [IH1 IH2]]; split; auto.
Qed.

Lemma prefix_escaped_slash (x : string) :
  String.prefix escaped_slash x = true ↔ ∃ r, x = escaped_slash +:+ r.
Proof.
  unfold escaped_slash. split.
  - destruct x as [|a [|b r]]; cbn -[ascii_dec]; try done.
    + by destruct (ascii_dec _ a).
    + destruct (ascii_dec _ a) as [<-|]; [|done].
      destruct (ascii_dec _ b) as [<-|]; [|done].
      by exists r.
  - intros [r ->]. by destruct r.
Qed.

Lemma replace_from_escaped_slash (r : string) :
  replace_from escaped_slash slash 0 (escaped_slash +:+ r)
  = slash +:+ replace_from escaped_slash slash 0 r.
Proof.
  assert (String.prefix escaped_slash (escaped_slash +:+ r) = true) as Hpre
    by (apply prefix_escaped_slash; by exists r).
  change (escaped_slash +:+ r) with (String "\" (String "/" r)) in *.
  cbn [replace_from]. by rewrite Hpre.
Qed.

Lemma replace_from_other (c : ascii) (r : string) :
  String.prefix escaped_slash (String c r) = false →
  replace_from escaped_slash slash 0 (String c r)
  = String c (replace_from escaped_slash slash 0 r).
Proof. intros H. cbn [replace_from]. by rewrite H. Qed.

Lemma join_cons_nonempty (sep p : string) (ps : list string) :
  ps ≠ [] → join sep (p :: ps) = p +:+ sep +:+ join sep ps.
Proof. by destruct ps. Qed.

Lemma join_String (sep : string) (c : ascii) (p : string) (ps : list string) :
  join sep (String c p :: ps) = String c (join sep (p :: ps)).
Proof. by destruct ps. Qed.

(** Every string is a sequence of parts free of the escape sequence and
    separated by it, and the replacement joins the same parts by a slash. *)
Lemma replace_from_join (s : string) :
  ∃ parts, parts ≠ [] ∧
    Forall (λ p, contains escaped_slash p = false) parts ∧
    s = join escaped_slash parts ∧
    replace_from escaped_slash slash 0 s = join slash parts.
Proof.
  induction s as [|c|c1 c2 s IH1 IH2] using string_ind2.
  - exists [""]. by split_and!; [|repeat constructor|..].
  - exists [String c ""]. split_and!; [done| |done|].
    + repeat constructor. unfold escaped_slash. cbn -[ascii_dec].
      by destruct (ascii_dec _ c).
    + apply replace_from_other. unfold escaped_slash. cbn -[ascii_dec].
      by destruct (ascii_dec _ c).
  - destruct (String.prefix escaped_slash (String c1 (String c2 s))) eqn:Hpre.
    + apply prefix_escaped_slash in Hpre as [r Hr].
      unfold escaped_slash in Hr. rewrite !append_cons, append_nil_l in Hr.
      injection Hr as -> -> <-.
      destruct IH1 as (parts & Hne & Hfree & Hs & Hrep).
      exists ("" :: parts). split_and!; [done|by constructor|..].
      * rewrite join_cons_nonempty by done. by rewrite <- Hs.
      * change (String "\" (String "/" s)) with (escaped_slash +:+ s).
        rewrite replace_from_escaped_slash, Hrep.
        by rewrite join_cons_nonempty by done.
    + destruct IH2 as (parts & Hne & Hfree & Hs & Hrep).
      destruct parts as [|p ps]; [done|].
      exists (String c1 p :: ps). split_and!; [done| | |].
      * apply Forall_cons in Hfree as [Hp Hps].
        constructor; [|done].
        cbn [contains]. rewrite Hp, orb_false_r.
        destruct (String.prefix escaped_slash (String c1 p)) eqn:Hpre'; [|done].
        apply prefix_escaped_slash in Hpre' as [r Hr].
        unfold escaped_slash in Hr. rewrite !append_cons, append_nil_l in Hr.
        injection Hr as -> ->.
        rewrite join_String in Hs. injection Hs as -> _.
        rewrite <- Hpre. symmetry. apply prefix_escaped_slash.
        by exists s.
      * by rewrite join_String, <- Hs.
      * rewrite replace_from_other, Hrep by done.
        by rewrite join_String.
Qed.

(** C4: the normalization of a URL, in [test_url] and in the report,
    replaces every occurrence of backslash-slash by a slash and leaves
    the rest of the string as it is: the string is a sequence of parts
    without the escape sequence separated by it, and the result is the
    same parts separated by a slash. *)
Theorem normalization_replaces_escaped_slashes :
  (∀ s, ∃ parts,
     Forall (λ p, contains escaped_slash p = false) parts ∧
     s = join escaped_slash parts ∧
     replace escaped_slash slash s = join slash parts ∧
     replace_method (JStr s) escaped_slash slash = Ok (join slash parts)) ∧
  replace escaped_slash slash "https:\/\/example.com\/list.txt"
  = "https://example.com/list.txt".
Proof.
  split; [|done].
  intros s. destruct (replace_from_join s) as (parts & _ & Hfree & Hs & Hrep).
  exists parts. split_and!; [done..| |].
  - exact Hrep.
  - cbn [replace_method]. f_equal. exact Hrep.
Qed.

(** ** The liveness filter *)



(** A comprehension whose element expression is the element itself
    returns a sublist of its input, made of elements that passed. *)
Lemma list_comp_id_sublist {A} (cond : A → result bool) (l out : list A) :
  list_comp cond (λ e, Ok e) l = Ok out →
  sublist out l ∧ Forall (λ e, cond e = Ok true) out.
Proof.
  revert out. induction l as [|e l IH]; intros out; cbn [list_comp].
  - intros [= <-]. split; constructor.
  - destruct (cond e) as [[|]|err] eqn:Hcond; cbn; [| |done].
    + destruct (list_comp cond (λ e, Ok e) l) as [xs|err]; cbn; [|done].
      intros [= <-]. destruct (IH xs eq_refl) as [Hsub Hall].
      split; by constructor.
    + intros H. destruct (IH out H) as [Hsub Hall].
      split; [by constructor|done].
Qed.



(** C9: the list the filter returns is made of elements of its input,
    unchanged and in their order; the normalization only reaches the
    string handed to [requests.head], so that an entry whose address
    holds backslash-slash is returned with that address. *)
Theorem filter_working_adlist_returns_input_entries
    (adlist out : list AdlistEntry) :
  filter_working_adlist adlist = Ok out →
  sublist out adlist ∧
  (∀ e, e ∈ out → e ∈ adlist ∧ test_url (address e) = Ok true) ∧
  (∀ e s, e ∈ out → address e = JStr s →
     requests_head (replace escaped_slash slash s) = Response 200).
Proof.
  intros Hrun. apply list_comp_id_sublist in Hrun as [Hsub Hall].
  rewrite Forall_forall in Hall.
  split_and!; [done| |].
  - intros e He. split; [|by apply Hall].
    by apply (sublist_subseteq _ _ Hsub).
  - intros e s He Hs.
    specialize (Hall e He). rewrite Hs in Hall.
    unfold test_url in Hall. cbn in Hall.
    destruct (requests_head _) as [code|]; [|done].
    injection Hall as Hcode. apply Z.eqb_eq in Hcode. by subst.
Qed.

(** ** The list readers *)

Lemma raised_Ok {A} (a : A) : raised (Ok a) ↔ False.
Proof. split; [by intros [e ?]|done]. Qed.

Lemma raised_Raise {A} (e : exn) : raised (@Raise A e) ↔ True.
Proof. split; [done|by exists e]. Qed.

Lemma raised_bind_Ok {A B} (r : result A) (f : A → B) :
  raised (x ← r; Ok (f x)) ↔ raised r.
Proof. destruct r; cbn; by rewrite ?raised_Ok, ?raised_Raise. Qed.

Section reader_comprehension.
Context {B : Type}.
Variables (test : json → bool) (key : string).
Variables (mk : json → json → B) (fst_of snd_of : B → json).
Hypothesis fst_of_mk : ∀ a c, fst_of (mk a c) = a.
Hypothesis snd_of_mk : ∀ a c, snd_of (mk a c) = c.

Lemma reader_comp_returns (recs : list json) (out : list B) :
  list_comp (λ e, enabled ← getitem e "enabled"; Ok (test enabled))
            (λ e, d ← getitem e key; c ← getitem e "comment";
                  Ok (mk d c))
            recs = Ok out →
  Forall2 (λ e o, getitem e key = Ok (fst_of o) ∧
                  getitem e "comment" = Ok (snd_of o))
          (List.filter (enabled_by test) recs) out.
Proof using fst_of_mk snd_of_mk.
  revert out. induction recs as [|e recs IH]; intros out.
  - intros [= <-]. constructor.
  - cbn [list_comp List.filter]. unfold enabled_by.
    destruct (getitem e "enabled") as [en|err]; cbn; [|done].
    destruct (test en); [|apply IH].
    destruct (getitem e key) as [a|err] eqn:Ha; cbn; [|done].
    destruct (getitem e "comment") as [c|err] eqn:Hc; cbn; [|done].
    destruct (list_comp _ _ recs) as [xs|err]; cbn; [|done].
    intros [= <-]. constructor; [|by apply IH].
    by rewrite Ha, Hc, fst_of_mk, snd_of_mk.
Qed.

Lemma reader_comp_complete (recs : list json) :
  Forall (complete key) recs →
  ∃ out,
    list_comp (λ e, enabled ← getitem e "enabled"; Ok (test enabled))
              (λ e, d ← getitem e key; c ← getitem e "comment";
                    Ok (mk d c))
              recs = Ok out.
Proof.
  induction 1
    as [|e recs (fields & -> & [a Ha] & [c Hc] & [en Hen]) _ (out & Hrun)].
  - by exists [].
  - cbn [list_comp getitem]. rewrite Hen, Ha, Hc. cbn.
    destruct (test en); [|by exists out].
    rewrite Hrun. cbn. by eexists.
Qed.

Lemma reader_comp_raised (recs : list json) :
  raised (list_comp (λ e, enabled ← getitem e "enabled"; Ok (test enabled))
                    (λ e, d ← getitem e key; c ← getitem e "comment";
                          Ok (mk d c))
                    recs)
  ↔ Exists (stops_reader test key) recs.
Proof.
  clear str_value requests_head.
  induction recs as [|e recs IH].
  - cbn [list_comp]. rewrite raised_Ok, Exists_nil. done.
  - rewrite Exists_cons, <- IH. clear IH.
    unfold stops_reader, enabled_by. cbn [list_comp].
    destruct (getitem e "enabled") as [en|err]; cbn;
      [|rewrite !raised_Raise; tauto].
    rewrite raised_Ok.
    destruct (test en); [|intuition congruence].
    destruct (getitem e key) as [a|err]; cbn;
      [|rewrite !raised_Raise; tauto].
    destruct (getitem e "comment") as [c|err]; cbn;
      [|rewrite !raised_Raise; tauto].
    rewrite !raised_Ok.
    rewrite (raised_bind_Ok _ (λ xs, mk a c :: xs)). tauto.
Qed.
End reader_comprehension.

Lemma load_document (w : world) (temp_dir name : string)
    (files : gmap string file) :
  tmpdirs w !! temp_dir = Some files →
  load temp_dir name w =
    match files !! name with
    | None => (Raise FileNotFoundError, w)
    | Some Undecodable => (Raise JSONDecodeError, w)
    | Some (JsonText doc) => (Ok doc, w)
    end.
Proof. intros Hd. unfold load. by rewrite Hd. Qed.

(** Unfolds a reader on a directory whose listing is known. *)
Ltac run_reader Hd Hf :=
  unfold read_adlist, read_whitelist_exact, read_blacklist_exact,
    read_whitelist_regex, read_blacklist_regex;
  unfold mbind at 1, M_bind;
  rewrite (load_document _ _ _ _ Hd), Hf;
  unfold lift; cbn [iter mbind result_bind fst].

Lemma reader_keeps_enabled_records {B} (reader : string → M (list B))
    (name : string) (test : json → bool) (key : string)
    (mk : json → json → B) (fst_of snd_of : B → json)
    (w : world) (temp_dir : string) (files : gmap string file) :
  (∀ a c, fst_of (mk a c) = a) →
  (∀ a c, snd_of (mk a c) = c) →
  (∀ recs, files !! name = Some (JsonText (JArr recs)) →
     reader temp_dir w =
       (list_comp (λ e, enabled ← getitem e "enabled"; Ok (test enabled))
                  (λ e, d ← getitem e key; c ← getitem e "comment";
                        Ok (mk d c))
                  recs, w)) →
  keeps_enabled_records reader name test key
    (λ e o, getitem e key = Ok (fst_of o) ∧
            getitem e "comment" = Ok (snd_of o))
    w temp_dir files.
Proof.
  intros Hfst Hsnd Hreader recs Hf. rewrite (Hreader recs Hf).
  split.
  - intros out Hout. by eapply reader_comp_returns.
  - intros Hcomplete.
    destruct (reader_comp_complete test key mk recs Hcomplete) as [out Hrun].
    exists out. rewrite Hrun. split; [done|].
    by eapply reader_comp_returns.
Qed.

(** C2: on a file that decodes to a list of records, [read_adlist] keeps
    the records whose [enabled] value is true in the sense of [if], each
    of the four domain-list readers keeps those whose [enabled] value
    [== 1], and every kept record becomes, in file order, an entry
    holding its [address] (or [domain]) and its [comment] as they are in
    the file; on complete records the reader does return that list. *)
Theorem readers_keep_enabled_records (w : world) (temp_dir : string)
    (files : gmap string file) :
  tmpdirs w !! temp_dir = Some files →
  keeps_enabled_records read_adlist "adlist.json" truthy "address"
    adlist_projection w temp_dir files ∧
  keeps_enabled_records read_whitelist_exact "whitelist.exact.json"
    eq_one "domain" domain_projection w temp_dir files ∧
  keeps_enabled_records read_blacklist_exact "blacklist.exact.json"
    eq_one "domain" domain_projection w temp_dir files ∧
  keeps_enabled_records read_whitelist_regex "whitelist.regex.json"
    eq_one "domain" domain_projection w temp_dir files ∧
  keeps_enabled_records read_blacklist_regex "blacklist.regex.json"
    eq_one "domain" domain_projection w temp_dir files.
Proof.
  intros Hd. split_and!.
  - apply (reader_keeps_enabled_records _ _ _ _ mkAdlistEntry
             address adlist_comment); [done..|].
    intros recs Hf. by run_reader Hd Hf.
  - apply (reader_keeps_enabled_records _ _ _ _ mkDomainEntry
             domain comment); [done..|].
    intros recs Hf. by run_reader Hd Hf.
  - apply (reader_keeps_enabled_records _ _ _ _ mkDomainEntry
             domain comment); [done..|].
    intros recs Hf. by run_reader Hd Hf.
  - apply (reader_keeps_enabled_records _ _ _ _ mkDomainEntry
             domain comment); [done..|].
    intros recs Hf. by run_reader Hd Hf.
  - apply (reader_keeps_enabled_records _ _ _ _ mkDomainEntry
             domain comment); [done..|].
    intros recs Hf. by run_reader Hd Hf.
Qed.

Lemma reader_raises_at_stopping_records {B} (reader : string → M (list B))
    (name : string) (test : json → bool) (key : string)
    (mk : json → json → B)
    (w : world) (temp_dir : string) (files : gmap string file) :
  (files !! name = Some Undecodable →
   reader temp_dir w = (Raise JSONDecodeError, w)) →
  (∀ recs, files !! name = Some (JsonText (JArr recs)) →
     reader temp_dir w =
       (list_comp (λ e, enabled ← getitem e "enabled"; Ok (test enabled))
                  (λ e, d ← getitem e key; c ← getitem e "comment";
                        Ok (mk d c))
                  recs, w)) →
  raises_at_stopping_records reader name test key w temp_dir files.
Proof.
  intros Hbad Hreader. split; [done|].
  intros recs Hf. rewrite (Hreader recs Hf). cbn [fst].
  apply reader_comp_raised.
Qed.

(** C7 (amended): a reader raises when its file does not decode; on a
    file that decodes to a list it raises exactly when some record cannot
    be asked for [enabled], or passes the reader's test on [enabled] and
    cannot be asked for [address] (or [domain]) or for [comment].  A
    record that fails the test is skipped whatever its other keys. *)
Theorem readers_raise_at_stopping_records (w : world) (temp_dir : string)
    (files : gmap string file) :
  tmpdirs w !! temp_dir = Some files →
  raises_at_stopping_records read_adlist "adlist.json" truthy "address"
    w temp_dir files ∧
  raises_at_stopping_records read_whitelist_exact "whitelist.exact.json"
    eq_one "domain" w temp_dir files ∧
  raises_at_stopping_records read_blacklist_exact "blacklist.exact.json"
    eq_one "domain" w temp_dir files ∧
  raises_at_stopping_records read_whitelist_regex "whitelist.regex.json"
    eq_one "domain" w temp_dir files ∧
  raises_at_stopping_records read_blacklist_regex "blacklist.regex.json"
    eq_one "domain" w temp_dir files.
Proof.
  intros Hd. split_and!.
  - apply (reader_raises_at_stopping_records _ _ _ _ mkAdlistEntry);
      [intros Hf | intros recs Hf]; by run_reader Hd Hf.
  - apply (reader_raises_at_stopping_records _ _ _ _ mkDomainEntry);
      [intros Hf | intros recs Hf]; by run_reader Hd Hf.
  - apply (reader_raises_at_stopping_records _ _ _ _ mkDomainEntry);
      [intros Hf | intros recs Hf]; by run_reader Hd Hf.
  - apply (reader_raises_at_stopping_records _ _ _ _ mkDomainEntry);
      [intros Hf | intros recs Hf]; by run_reader Hd Hf.
  - apply (reader_raises_at_stopping_records _ _ _ _ mkDomainEntry);
      [intros Hf | intros recs Hf]; by run_reader Hd Hf.
Qed.

(** ** The rule builder *)

Lemma build_custom_filtering_rules_rule_block
    (whitelist_exact blacklist_exact whitelist_regex blacklist_regex
       : list DomainEntry) :
  build_custom_filtering_rules
    whitelist_exact blacklist_exact whitelist_regex blacklist_regex
  = rule_block 2
      whitelist_exact blacklist_exact whitelist_regex blacklist_regex.
Proof.
  unfold build_custom_filtering_rules, rule_block.
  rewrite !(foldl_rule_lines _ "^"), !(foldl_rule_lines _ "/").
  rewrite !unlines_app.
  cbn [replicate]. rewrite !unlines_cons, unlines_nil.
  by rewrite !append_assoc, !append_nil_l, ?append_nil_r.
Qed.

(** C10: with four empty sequences the builder returns the skeleton
    ["! Whitelist\n\n\n! Blacklist\n"]: the whitelist header, two empty
    lines and the blacklist header, and no entry line. *)
Theorem build_custom_filtering_rules_empty :
  build_custom_filtering_rules [] [] [] []
  = "! Whitelist" +:+ LF +:+ LF +:+ LF +:+ "! Blacklist" +:+ LF
  ∧ build_custom_filtering_rules [] [] [] [] ≠ ""
  ∧ lines (build_custom_filtering_rules [] [] [] [])
    = ["! Whitelist"; ""; ""; "! Blacklist"; ""].
Proof. by split_and!. Qed.

(** C1 (amended): for all four sequences the builder returns the line
    [! Whitelist], two lines per whitelist-exact entry ([# comment],
    [@@|domain^]), two per whitelist-regex entry ([# comment],
    [@@/domain/]), two empty lines, the line [! Blacklist], two lines per
    blacklist-exact entry ([# comment], [|domain^]) and two per
    blacklist-regex entry ([# comment], [/domain/]), each sequence in its
    order. *)
Theorem build_custom_filtering_rules_two_blank_lines
    (whitelist_exact blacklist_exact whitelist_regex blacklist_regex
       : list DomainEntry) :
  build_custom_filtering_rules
    whitelist_exact blacklist_exact whitelist_regex blacklist_regex
  = unlines (["! Whitelist"]
             ++ (whitelist_exact ≫= rule_lines "@@|" "^")
             ++ (whitelist_regex ≫= rule_lines "@@/" "/")
             ++ [""; ""]
             ++ ["! Blacklist"]
             ++ (blacklist_exact ≫= rule_lines "|" "^")
             ++ (blacklist_regex ≫= rule_lines "/" "/")).
Proof. apply build_custom_filtering_rules_rule_block. Qed.

(** C8: two calls of the builder on equal sequences return equal strings,
    and in every output a line [! Whitelist] comes before a line
    [! Blacklist]. *)
Theorem build_custom_filtering_rules_deterministic
    (whitelist_exact blacklist_exact whitelist_regex blacklist_regex
     whitelist_exact' blacklist_exact' whitelist_regex' blacklist_regex'
       : list DomainEntry) :
  whitelist_exact = whitelist_exact' →
  blacklist_exact = blacklist_exact' →
  whitelist_regex = whitelist_regex' →
  blacklist_regex = blacklist_regex' →
  let first :=
    build_custom_filtering_rules
      whitelist_exact blacklist_exact whitelist_regex blacklist_regex in
  let second :=
    build_custom_filtering_rules
      whitelist_exact' blacklist_exact' whitelist_regex' blacklist_regex' in
  first = second ∧
  ∃ i j : nat, i < j ∧
    lines first !! i = Some "! Whitelist" ∧
    lines first !! j = Some "! Blacklist".
Proof.
  intros <- <- <- <- first second. split; [done|].
  unfold first. rewrite build_custom_filtering_rules_rule_block.
  unfold rule_block. rewrite lines_unlines.
  set (pre := (whitelist_exact ≫= rule_lines "@@|" "^")
              ++ (whitelist_regex ≫= rule_lines "@@/" "/")
              ++ replicate 2 "").
  rewrite !(assoc_L (++) _ _ (["! Blacklist"] ++ _)).
  rewrite <- !(assoc_L (++) ["! Whitelist"]). fold pre.
  rewrite !bind_app.
  exists 0, (S (length (pre ≫= lines))). split_and!.
  - lia.
  - done.
  - rewrite <- !(assoc_L (++)).
    change (["! Whitelist"] ≫= lines) with ["! Whitelist"].
    change (["! Blacklist"] ≫= lines) with ["! Blacklist"].
    by apply (list_lookup_middle ("! Whitelist" :: (pre ≫= lines))).
Qed.

(** ** The run *)

Lemma fresh_temp_dir (w : world) :
  tmpdirs w !! fresh (dom (tmpdirs w)) = None.
Proof. apply not_elem_of_dom, is_fresh. Qed.

Lemma unzip_tar_gz_members (w : world) (archive_path : string)
    (members : gmap string file) :
  archives w !! archive_path = Some (TarGz members) →
  unzip_tar_gz archive_path w =
    (Ok (fresh (dom (tmpdirs w))),
     mkWorld (archives w)
             (<[fresh (dom (tmpdirs w)) := members]> (tmpdirs w))
             (stdout w)).
Proof.
  intros Ha. unfold unzip_tar_gz, mbind, M_bind, mkdtemp, extractall.
  cbn. rewrite Ha. cbn.
  rewrite lookup_insert_eq, insert_insert_eq. cbn.
  by rewrite (right_id_L ∅ (∪)).
Qed.

Lemma unzip_tar_gz_unreadable (w : world) (archive_path : string) :
  archives w !! archive_path = None ∨
  archives w !! archive_path = Some NotTarGz →
  ∃ e,
    unzip_tar_gz archive_path w =
      (Raise e,
       mkWorld (archives w)
               (<[fresh (dom (tmpdirs w)) := ∅]> (tmpdirs w))
               (stdout w)).
Proof.
  intros Ha. unfold unzip_tar_gz, mbind, M_bind, mkdtemp, extractall. cbn.
  destruct Ha as [-> | ->]; by eexists.
Qed.

Lemma main_two_arguments (prog archive_path : string) :
  main [prog; archive_path] =
    (temp_dir ← unzip_tar_gz archive_path;
     try_finally (report temp_dir) (rmtree temp_dir)).
Proof. reflexivity. Qed.

(** C5 (the code at an unreadable archive): when the archive is missing
    or is not a gzip tar file, [main] ends with the exception of the
    extraction, and the directory made by [mkdtemp] is still there. *)
Theorem unreadable_archive_leaves_temp_dir (w : world)
    (prog archive_path : string) :
  archives w !! archive_path = None ∨
  archives w !! archive_path = Some NotTarGz →
  ∃ e w',
    main [prog; archive_path] w = (Raise e, w') ∧
    tmpdirs w !! fresh (dom (tmpdirs w)) = None ∧
    tmpdirs w' !! fresh (dom (tmpdirs w)) = Some ∅.
Proof.
  intros Ha. destruct (unzip_tar_gz_unreadable w archive_path Ha) as [e He].
  exists e. eexists. rewrite main_two_arguments.
  unfold mbind, M_bind. rewrite He. split_and!; [done| |].
  - apply fresh_temp_dir.
  - cbn. by rewrite lookup_insert_eq.
Qed.

(** C6: when the archive is extracted and has no member [adlist.json],
    the run ends with [FileNotFoundError]; nothing has been printed and
    the directory made for the extraction has been removed. *)
Theorem missing_adlist_is_fatal_and_cleaned_up (w : world)
    (prog archive_path : string) (members : gmap string file) :
  archives w !! archive_path = Some (TarGz members) →
  members !! "adlist.json" = None →
  (∃ w1, unzip_tar_gz archive_path w = (Ok (fresh (dom (tmpdirs w))), w1) ∧
         tmpdirs w !! fresh (dom (tmpdirs w)) = None ∧
         tmpdirs w1 !! fresh (dom (tmpdirs w)) = Some members) ∧
  ∃ w',
    main [prog; archive_path] w = (Raise FileNotFoundError, w') ∧
    script [prog; archive_path] w = (Raise FileNotFoundError, w') ∧
    stdout w' = stdout w ∧
    tmpdirs w' !! fresh (dom (tmpdirs w)) = None ∧
    tmpdirs w' = tmpdirs w.
Proof.
  intros Ha Hm. pose proof (unzip_tar_gz_members w archive_path members Ha) as Hz.
  pose proof (fresh_temp_dir w) as Hfresh.
  split.
  - eexists. split_and!; [done..|]. cbn. by rewrite lookup_insert_eq.
  - assert (main [prog; archive_path] w = (Raise FileNotFoundError, w)) as Hmain.
    { rewrite main_two_arguments. unfold mbind at 1, M_bind. rewrite Hz.
      unfold try_finally, report, read_adlist.
      unfold mbind at 1, M_bind. unfold mbind at 1, M_bind.
      erewrite load_document by (cbn; apply lookup_insert_eq).
      rewrite Hm. unfold rmtree. cbn. rewrite lookup_insert_eq.
      rewrite delete_insert_eq, delete_id by done.
      by destruct w. }
    exists w. split_and!; [done| |done..].
    unfold script, mbind, M_bind. by rewrite Hmain.
Qed.

(** ** Further properties of the script *)

(** *** The command line *)

(** X1: with any number of arguments other than one, [main] prints the
    usage line and exits with status 1; no directory is made and no
    archive is opened. *)
Theorem main_usage_exit (argv : list string) (w : world) :
  length argv ≠ 2 →
  main argv w
  = (Raise (SystemExit 1),
     printed w ("Usage: python3 convert_config.py <teleporter archive path>"
                +:+ LF)) ∧
  script argv w
  = (Raise (SystemExit 1),
     printed w ("Usage: python3 convert_config.py <teleporter archive path>"
                +:+ LF)).
Proof.
  intros Hlen.
  assert (main argv w
          = (Raise (SystemExit 1),
             printed w
               ("Usage: python3 convert_config.py <teleporter archive path>"
                +:+ LF))) as Hmain.
  { unfold main. by rewrite bool_decide_eq_true_2 by done. }
  split; [done|].
  unfold script, mbind, M_bind. by rewrite Hmain.
Qed.

(** *** Extraction *)

(** X2: on a readable archive [unzip_tar_gz] returns a directory that did
    not exist before and now holds exactly the members of the archive;
    the other directories, the archives and the output are untouched. *)
Theorem unzip_tar_gz_extracts (w : world) (archive_path : string)
    (members : gmap string file) :
  archives w !! archive_path = Some (TarGz members) →
  ∃ temp_dir w1,
    unzip_tar_gz archive_path w = (Ok temp_dir, w1) ∧
    tmpdirs w !! temp_dir = None ∧
    tmpdirs w1 !! temp_dir = Some members ∧
    (∀ d, d ≠ temp_dir → tmpdirs w1 !! d = tmpdirs w !! d) ∧
    archives w1 = archives w ∧
    stdout w1 = stdout w.
Proof.
  intros Ha. do 2 eexists.
  split; [by apply unzip_tar_gz_members|].
  split_and!; cbn.
  - apply fresh_temp_dir.
  - by rewrite lookup_insert_eq.
  - intros d Hd. by rewrite lookup_insert_ne.
  - done.
  - done.
Qed.

(** *** Readers on files that are missing or hold no list *)

Lemma load_missing (w : world) (temp_dir name : string) :
  tmpdirs w !! temp_dir ≫= (.!! name) = None →
  load temp_dir name w = (Raise FileNotFoundError, w).
Proof. intros H. unfold load. by rewrite H. Qed.

(** X6: each reader raises [FileNotFoundError], and changes nothing, when
    its file is not in the directory or the directory does not exist. *)
Theorem readers_need_their_file (w : world) (temp_dir : string) :
  needs_file read_adlist "adlist.json" w temp_dir ∧
  needs_file read_whitelist_exact "whitelist.exact.json" w temp_dir ∧
  needs_file read_blacklist_exact "blacklist.exact.json" w temp_dir ∧
  needs_file read_whitelist_regex "whitelist.regex.json" w temp_dir ∧
  needs_file read_blacklist_regex "blacklist.regex.json" w temp_dir.
Proof.
  split_and!; intros Hnone;
    unfold read_adlist, read_whitelist_exact, read_blacklist_exact,
      read_whitelist_regex, read_blacklist_regex;
    unfold mbind at 1, M_bind;
    by rewrite (load_missing _ _ _ Hnone).
Qed.

(** A dict or a string yields strings, which cannot be asked for
    ["enabled"]; the other documents that are no list cannot be iterated. *)
Lemma comprehension_over_other_documents {B} (test : json → bool)
    (elt : json → result B) (doc : json) :
  (∀ items, doc ≠ JArr items) →
  (items ← iter doc;
   list_comp (λ e, enabled ← getitem e "enabled"; Ok (test enabled)) elt items)
  = if empty_container doc then Ok [] else Raise TypeError.
Proof.
  intros Hdoc. destruct doc as [| | | |s|items|fields]; try done.
  - by destruct s.
  - by destruct (Hdoc items).
  - cbn [iter empty_container mbind result_bind].
    case_bool_decide as Hempty.
    + subst fields. by rewrite map_to_list_empty.
    + destruct (map_to_list fields) as [|kv kvs] eqn:Hlist; [|done].
      by apply map_to_list_empty_iff in Hlist.
Qed.

(** X7: a reader whose file decodes to something else than a list returns
    the empty list for a dict without keys and for the empty string, and
    raises [TypeError] for every other document. *)
Theorem readers_reject_other_documents (w : world) (temp_dir : string)
    (files : gmap string file) :
  tmpdirs w !! temp_dir = Some files →
  rejects_other_documents read_adlist "adlist.json" w temp_dir files ∧
  rejects_other_documents read_whitelist_exact "whitelist.exact.json"
    w temp_dir files ∧
  rejects_other_documents read_blacklist_exact "blacklist.exact.json"
    w temp_dir files ∧
  rejects_other_documents read_whitelist_regex "whitelist.regex.json"
    w temp_dir files ∧
  rejects_other_documents read_blacklist_regex "blacklist.regex.json"
    w temp_dir files.
Proof.
  intros Hd. split_and!; intros doc Hf Hdoc;
    unfold read_adlist, read_whitelist_exact, read_blacklist_exact,
      read_whitelist_regex, read_blacklist_regex;
    unfold mbind at 1, M_bind;
    rewrite (load_document _ _ _ _ Hd), Hf; unfold lift;
    by rewrite comprehension_over_other_documents.
Qed.

(** *** The liveness filter on addresses that are no strings *)

Lemma test_url_other (e : AdlistEntry) :
  ¬ string_address e → test_url (address e) = Raise AttributeError.
Proof.
  intros Hs. unfold test_url.
  destruct (address e) eqn:Ha; try done.
  destruct Hs. by eexists.
Qed.

Lemma string_address_dec (e : AdlistEntry) :
  string_address e ∨ ¬ string_address e.
Proof.
  unfold string_address.
  destruct (address e); try (right; by intros [? ?]).
  left. by eexists.
Qed.


(** *** Normalization of addresses *)

Lemma contains_cons (old : string) (c : ascii) (s : string) :
  contains old (String c s)
  = String.prefix old (String c s) || contains old s.
Proof. reflexivity. Qed.

Lemma replace_escaped_slash (s : string) :
  replace escaped_slash slash s = replace_from escaped_slash slash 0 s.
Proof. reflexivity. Qed.

Lemma replace_length_le (s : string) :
  String.length (replace escaped_slash slash s) ≤ String.length s.
Proof.
  rewrite replace_escaped_slash.
  induction s as [|c|c1 c2 s IH1 IH2] using string_ind2.
  - done.
  - rewrite replace_from_other; [done|].
    unfold escaped_slash. cbn -[ascii_dec]. by destruct (ascii_dec _ c).
  - destruct (String.prefix escaped_slash (String c1 (String c2 s))) eqn:Hpre.
    + apply prefix_escaped_slash in Hpre as [r Hr].
      unfold escaped_slash in Hr. rewrite !append_cons, append_nil_l in Hr.
      injection Hr as -> -> <-.
      change (String "\" (String "/" s)) with (escaped_slash +:+ s) at 1.
      rewrite replace_from_escaped_slash.
      unfold slash at 1. rewrite append_cons, append_nil_l.
      cbn [String.length]. lia.
    + rewrite replace_from_other by done. cbn [String.length] in *. lia.
Qed.

Lemma replace_length_lt (s : string) :
  contains escaped_slash s = true →
  String.length (replace escaped_slash slash s) < String.length s.
Proof.
  rewrite replace_escaped_slash.
  induction s as [|c|c1 c2 s IH1 IH2] using string_ind2.
  - done.
  - unfold escaped_slash. cbn -[ascii_dec]. by destruct (ascii_dec _ c).
  - rewrite contains_cons.
    destruct (String.prefix escaped_slash (String c1 (String c2 s))) eqn:Hpre.
    + intros _. apply prefix_escaped_slash in Hpre as [r Hr].
      unfold escaped_slash in Hr. rewrite !append_cons, append_nil_l in Hr.
      injection Hr as -> -> <-.
      change (String "\" (String "/" s)) with (escaped_slash +:+ s) at 1.
      rewrite replace_from_escaped_slash.
      unfold slash at 1. rewrite append_cons, append_nil_l.
      pose proof (replace_length_le s) as Hle.
      rewrite replace_escaped_slash in Hle.
      cbn [String.length]. lia.
    + rewrite orb_false_l. intros Hc. specialize (IH2 Hc).
      rewrite replace_from_other by done. cbn [String.length] in *. lia.
Qed.

Lemma replace_without_escape (s : string) :
  contains escaped_slash s = false →
  replace escaped_slash slash s = s.
Proof.
  rewrite replace_escaped_slash.
  induction s as [|c s IH]; [done|].
  rewrite contains_cons. intros [Hpre Hc]%orb_false_elim.
  rewrite replace_from_other by done. by rewrite IH.
Qed.

(** X9: the normalization returns an address without backslash-slash as
    it is, makes every other address strictly shorter, and so changes an
    address exactly when the escape sequence occurs in it. *)
Theorem normalization_changes_escaped_addresses (s : string) :
  (contains escaped_slash s = false → replace escaped_slash slash s = s) ∧
  (contains escaped_slash s = true →
   String.length (replace escaped_slash slash s) < String.length s) ∧
  (replace escaped_slash slash s = s ↔ contains escaped_slash s = false).
Proof.
  split_and!.
  - apply replace_without_escape.
  - apply replace_length_lt.
  - split; [|apply replace_without_escape].
    intros Heq. destruct (contains escaped_slash s) eqn:Hc; [|done].
    apply replace_length_lt in Hc. rewrite Heq in Hc. lia.
Qed.

(** *** Lines of the rule block *)

Lemma prefix_LF (c : ascii) (s : string) :
  String.prefix LF (String c s) = Ascii.eqb c "010".
Proof.
  unfold LF. cbn -[ascii_dec].
  destruct (ascii_dec "010" c) as [<-|Hne].
  - by destruct s.
  - symmetry. apply Ascii.eqb_neq. congruence.
Qed.

Lemma contains_LF_app (a b : string) :
  contains LF (a +:+ b) = contains LF a || contains LF b.
Proof.
  induction a as [|c a IH]; [done|].
  by rewrite append_cons, !contains_cons, !prefix_LF, IH, orb_assoc.
Qed.

Lemma lines_single (s : string) :
  contains LF s = false → lines s = [s].
Proof.
  induction s as [|c s IH]; [done|].
  rewrite contains_cons, prefix_LF. intros [Hc Hs]%orb_false_elim.
  cbn [lines]. by rewrite Hc, (IH Hs).
Qed.

Lemma rule_lines_single (opening closing : string) (e : DomainEntry) :
  contains LF opening = false →
  contains LF closing = false →
  single_line e →
  rule_lines opening closing e ≫= lines = rule_lines opening closing e.
Proof.
  intros Ho Hc [Hcomment Hdomain]. unfold rule_lines.
  change (?l ≫= lines) with (mbind (M:=list) lines l).
  cbn [mbind list_bind app].
  rewrite !lines_single; [done|..];
    rewrite !contains_LF_app, ?Ho, ?Hc, ?Hcomment, ?Hdomain; done.
Qed.

Lemma rule_lines_bind_single (opening closing : string)
    (entries : list DomainEntry) :
  contains LF opening = false →
  contains LF closing = false →
  Forall single_line entries →
  (entries ≫= rule_lines opening closing) ≫= lines
  = entries ≫= rule_lines opening closing.
Proof.
  intros Ho Hc. induction 1 as [|e entries He _ IH]; [done|].
  change ((e :: entries) ≫= rule_lines opening closing)
    with (rule_lines opening closing e
            ++ (entries ≫= rule_lines opening closing)).
  by rewrite bind_app, IH, rule_lines_single.
Qed.

Lemma length_rule_lines_bind (opening closing : string)
    (entries : list DomainEntry) :
  length (entries ≫= rule_lines opening closing) = 2 * length entries.
Proof.
  induction entries as [|e entries IH]; [done|].
  change ((e :: entries) ≫= rule_lines opening closing)
    with (rule_lines opening closing e
            ++ (entries ≫= rule_lines opening closing)).
  rewrite length_app, IH. cbn [length rule_lines]. lia.
Qed.

(** X10: when no comment and no domain is printed with a line feed, the
    output of the builder splits into exactly its header lines, two
    lines per entry and the two empty lines, followed by the empty
    string after the last line feed: 5 + 2n pieces for n entries. *)
Theorem build_custom_filtering_rules_lines
    (whitelist_exact blacklist_exact whitelist_regex blacklist_regex
       : list DomainEntry) :
  Forall single_line
    (whitelist_exact ++ blacklist_exact ++ whitelist_regex ++ blacklist_regex) →
  lines (build_custom_filtering_rules
           whitelist_exact blacklist_exact whitelist_regex blacklist_regex)
  = ["! Whitelist"]
    ++ (whitelist_exact ≫= rule_lines "@@|" "^")
    ++ (whitelist_regex ≫= rule_lines "@@/" "/")
    ++ [""; ""]
    ++ ["! Blacklist"]
    ++ (blacklist_exact ≫= rule_lines "|" "^")
    ++ (blacklist_regex ≫= rule_lines "/" "/")
    ++ [""] ∧
  length (lines (build_custom_filtering_rules
                   whitelist_exact blacklist_exact
                   whitelist_regex blacklist_regex))
  = 5 + 2 * (length whitelist_exact + length blacklist_exact
             + length whitelist_regex + length blacklist_regex).
Proof.
  rewrite !Forall_app. intros (Hwe & Hbe & Hwr & Hbr).
  assert (lines (build_custom_filtering_rules
                   whitelist_exact blacklist_exact
                   whitelist_regex blacklist_regex)
          = ["! Whitelist"]
            ++ (whitelist_exact ≫= rule_lines "@@|" "^")
            ++ (whitelist_regex ≫= rule_lines "@@/" "/")
            ++ [""; ""]
            ++ ["! Blacklist"]
            ++ (blacklist_exact ≫= rule_lines "|" "^")
            ++ (blacklist_regex ≫= rule_lines "/" "/")
            ++ [""]) as Hlines.
  { rewrite build_custom_filtering_rules_rule_block.
    unfold rule_block. rewrite lines_unlines, !bind_app.
    rewrite !rule_lines_bind_single by done.
    by rewrite <- !(assoc_L (++)). }
  split; [done|].
  rewrite Hlines, !length_app, !length_rule_lines_bind. cbn [length]. lia.
Qed.

(** *** Stages of the run *)

Lemma printed_printed (w : world) (a b : string) :
  printed (printed w a) b = printed w (a +:+ b).
Proof. unfold printed. cbn. by rewrite append_assoc. Qed.

Lemma print_printed (s : string) (w : world) :
  print s w = (Ok (), printed w (s +:+ LF)).
Proof. reflexivity. Qed.

(** A reader leaves the world as it finds it. *)
Lemma bind_load_lift {B} (temp_dir name : string) (k : json → result B)
    (w : world) :
  (doc ← load temp_dir name; lift (k doc)) w
  = (match (load temp_dir name w).1 with
     | Ok doc => k doc
     | Raise e => Raise e
     end, w).
Proof.
  unfold mbind, M_bind, load, lift.
  destruct (tmpdirs w !! temp_dir ≫= (.!! name)) as [[doc|]|]; done.
Qed.

Lemma readers_read_only (temp_dir : string) (w : world) :
  read_adlist temp_dir w = ((read_adlist temp_dir w).1, w) ∧
  read_whitelist_exact temp_dir w = ((read_whitelist_exact temp_dir w).1, w) ∧
  read_blacklist_exact temp_dir w = ((read_blacklist_exact temp_dir w).1, w) ∧
  read_whitelist_regex temp_dir w = ((read_whitelist_regex temp_dir w).1, w) ∧
  read_blacklist_regex temp_dir w = ((read_blacklist_regex temp_dir w).1, w).
Proof.
  unfold read_adlist, read_whitelist_exact, read_blacklist_exact,
    read_whitelist_regex, read_blacklist_regex.
  by rewrite !bind_load_lift.
Qed.

Lemma filter_working_adlist_string_addresses
    (adlist out : list AdlistEntry) :
  filter_working_adlist adlist = Ok out → Forall string_address out.
Proof.
  intros Hrun. apply list_comp_id_sublist in Hrun as [_ Hall].
  eapply Forall_impl; [exact Hall|].
  intros e He. cbn beta in He.
  destruct (string_address_dec e) as [|Hs]; [done|].
  by rewrite (test_url_other e Hs) in He.
Qed.

(** The loop of [main] over entries with string addresses. *)
Lemma print_entries (adlist : list AdlistEntry) (w : world) :
  Forall string_address adlist →
  for_each adlist (λ addlist_entry,
    print ("Name: " +:+ format (adlist_comment addlist_entry));;
    url ← lift (replace_method (address addlist_entry) escaped_slash slash);
    print ("URL: " +:+ url);;
    print (LF +:+ LF)) w
  = (Ok (), printed w (unlines (adlist ≫= entry_lines))).
Proof.
  intros Hall. revert w.
  induction Hall as [|e adlist [s Hs] _ IH]; intros w.
  - cbn. unfold printed. rewrite append_nil_r. by destruct w.
  - cbn [for_each]. unfold mbind at 1, M_bind at 1.
    unfold mbind at 1, M_bind at 1. rewrite print_printed.
    unfold mbind at 1, M_bind at 1. rewrite Hs. cbn [replace_method lift].
    unfold mbind at 1, M_bind at 1. rewrite print_printed.
    rewrite print_printed. rewrite IH, !printed_printed. do 2 f_equal.
    change ((e :: adlist) ≫= entry_lines)
      with (entry_lines e ++ (adlist ≫= entry_lines)).
    rewrite unlines_app. unfold entry_lines. rewrite Hs.
    rewrite !unlines_cons, unlines_nil.
    by rewrite !append_assoc, ?append_nil_l, ?append_nil_r.
Qed.

(** *** Line feeds inside comments and domains *)

Lemma length_lines_pos (s : string) : 1 ≤ length (lines s).
Proof.
  pose proof (lines_nonempty s). destruct (lines s); [done|cbn; lia].
Qed.

Lemma length_lines_LF (s : string) :
  contains LF s = true → 2 ≤ length (lines s).
Proof.
  induction s as [|c s IH]; [done|].
  rewrite contains_cons, prefix_LF. cbn [lines].
  destruct (Ascii.eqb c "010").
  - intros _. pose proof (length_lines_pos s). cbn [length]. lia.
  - rewrite orb_false_l. intros Hs. specialize (IH Hs).
    destruct (lines s); cbn [length] in *; lia.
Qed.

Lemma length_bind_lines (ls : list string) :
  length ls ≤ length (ls ≫= lines) ∧
  (length (ls ≫= lines) = length ls
   ↔ Forall (λ l, contains LF l = false) ls).
Proof.
  induction ls as [|l ls [IHle IHeq]].
  - split; [done|]. split; [constructor|done].
  - change ((l :: ls) ≫= lines) with (lines l ++ (ls ≫= lines)).
    rewrite length_app, Forall_cons. cbn [length].
    pose proof (length_lines_pos l) as Hpos.
    split; [lia|]. rewrite <- IHeq.
    destruct (contains LF l) eqn:Hl.
    + apply length_lines_LF in Hl. split; [lia|]. by intros [? _].
    + rewrite (lines_single l Hl). cbn [length]. split; [|lia].
      intros Heq. split; [done|lia].
Qed.

Lemma rule_lines_free (opening closing : string) (e : DomainEntry) :
  contains LF opening = false →
  contains LF closing = false →
  Forall (λ l, contains LF l = false) (rule_lines opening closing e)
  ↔ single_line e.
Proof.
  intros Ho Hc. unfold rule_lines, single_line.
  rewrite !Forall_cons, !contains_LF_app, Ho, Hc, orb_false_r.
  cbn [orb]. split; [by intros (? & ? & _)|].
  intros [? ?]. split_and!; [done..|constructor].
Qed.

Lemma rule_lines_bind_free (opening closing : string)
    (entries : list DomainEntry) :
  contains LF opening = false →
  contains LF closing = false →
  Forall (λ l, contains LF l = false) (entries ≫= rule_lines opening closing)
  ↔ Forall single_line entries.
Proof.
  intros Ho Hc. rewrite Forall_bind.
  apply Forall_proper; [|done].
  intros e. by apply rule_lines_free.
Qed.

(** X11: nothing is escaped, so a line feed in a comment or a domain
    adds lines to the block: the output always splits into at least
    5 + 2n pieces for n entries, and into exactly that many if and only
    if no comment and no domain is printed with a line feed. *)
Theorem build_custom_filtering_rules_line_count
    (whitelist_exact blacklist_exact whitelist_regex blacklist_regex
       : list DomainEntry) :
  let n := length whitelist_exact + length blacklist_exact
           + length whitelist_regex + length blacklist_regex in
  let pieces :=
    lines (build_custom_filtering_rules
             whitelist_exact blacklist_exact
             whitelist_regex blacklist_regex) in
  5 + 2 * n ≤ length pieces ∧
  (length pieces = 5 + 2 * n
   ↔ Forall single_line
       (whitelist_exact ++ blacklist_exact
        ++ whitelist_regex ++ blacklist_regex)).
Proof.
  intros n pieces. unfold pieces, n.
  rewrite build_custom_filtering_rules_rule_block.
  unfold rule_block. rewrite lines_unlines, length_app.
  set (block := ["! Whitelist"]
                ++ (whitelist_exact ≫= rule_lines "@@|" "^")
                ++ (whitelist_regex ≫= rule_lines "@@/" "/")
                ++ replicate 2 ""
                ++ ["! Blacklist"]
                ++ (blacklist_exact ≫= rule_lines "|" "^")
                ++ (blacklist_regex ≫= rule_lines "/" "/")).
  destruct (length_bind_lines block) as [Hle Heq].
  assert (length block
          = 4 + 2 * (length whitelist_exact + length blacklist_exact
                     + length whitelist_regex + length blacklist_regex))
    as Hblock.
  { unfold block. rewrite !length_app, !length_rule_lines_bind.
    cbn [length replicate]. lia. }
  assert (Forall (λ l, contains LF l = false) block
          ↔ Forall single_line
              (whitelist_exact ++ blacklist_exact
               ++ whitelist_regex ++ blacklist_regex)) as Hfree.
  { unfold block.
    rewrite !Forall_app, !rule_lines_bind_free by done.
    cbn [replicate]. rewrite !Forall_cons, !Forall_nil.
    split; [intros (_ & ? & ? & _ & _ & ? & ?)|intros (? & ? & ? & ?)];
      by split_and!. }
  cbn [length]. split; [lia|].
  rewrite <- Hfree, <- Heq. lia.
Qed.

Lemma printed_nil (w : world) : printed w "" = w.
Proof. unfold printed. rewrite append_nil_r. by destruct w. Qed.

Lemma bind_read_only {A B} (m : M A) (k : A → M B) (w : world) :
  m w = ((m w).1, w) →
  (x ← m; k x) w
  = match (m w).1 with
    | Ok a => k a w
    | Raise e => (Raise e, w)
    end.
Proof.
  unfold mbind, M_bind. destruct (m w) as [r w1]. cbn.
  intros [= ->]. by destruct r.
Qed.

(** The [try] block stage by stage: the five files are read and the
    adlist is filtered before anything is printed, the first stage that
    raises ends the block with the world as it was, and otherwise the
    whole report is printed. *)
Lemma report_stages (temp_dir : string) (w : world) :
  report temp_dir w
  = match (read_adlist temp_dir w).1 with
    | Raise e => (Raise e, w)
    | Ok adlist =>
    match filter_working_adlist adlist with
    | Raise e => (Raise e, w)
    | Ok adlist =>
    match (read_whitelist_exact temp_dir w).1 with
    | Raise e => (Raise e, w)
    | Ok whitelist_exact =>
    match (read_blacklist_exact temp_dir w).1 with
    | Raise e => (Raise e, w)
    | Ok blacklist_exact =>
    match (read_whitelist_regex temp_dir w).1 with
    | Raise e => (Raise e, w)
    | Ok whitelist_regex =>
    match (read_blacklist_regex temp_dir w).1 with
    | Raise e => (Raise e, w)
    | Ok blacklist_regex =>
        (Ok (),
         printed w
           (report_text adlist
              (build_custom_filtering_rules
                 whitelist_exact blacklist_exact
                 whitelist_regex blacklist_regex)))
    end end end end end end.
Proof.
  destruct (readers_read_only temp_dir w) as (Ha & Hwe & Hbe & Hwr & Hbr).
  unfold report.
  rewrite bind_read_only by exact Ha.
  destruct ((read_adlist temp_dir w).1) as [adlist|e]; [|done].
  rewrite bind_read_only by done. cbn [lift fst].
  destruct (filter_working_adlist adlist) as [survivors|e] eqn:Hfilter; [|done].
  rewrite bind_read_only by exact Hwe.
  destruct ((read_whitelist_exact temp_dir w).1) as [whitelist_exact|e]; [|done].
  rewrite bind_read_only by exact Hbe.
  destruct ((read_blacklist_exact temp_dir w).1) as [blacklist_exact|e]; [|done].
  rewrite bind_read_only by exact Hwr.
  destruct ((read_whitelist_regex temp_dir w).1) as [whitelist_regex|e]; [|done].
  rewrite bind_read_only by exact Hbr.
  destruct ((read_blacklist_regex temp_dir w).1) as [blacklist_regex|e]; [|done].
  cbn zeta.
  unfold mbind at 1, M_bind at 1. rewrite print_printed.
  unfold mbind at 1, M_bind at 1.
  rewrite print_entries
    by (by eapply filter_working_adlist_string_addresses).
  unfold mbind at 1, M_bind at 1. rewrite !print_printed, !printed_printed.
  do 2 f_equal. unfold report_text.
  rewrite !unlines_app, !unlines_cons, unlines_nil.
  by rewrite !append_assoc, ?append_nil_l, ?append_nil_r.
Qed.

Lemma report_outcome (temp_dir : string) (w : world) :
  ∃ r text,
    report temp_dir w = (r, printed w text) ∧
    (∀ e, r = Raise e → text = "") ∧
    (∀ u, r = Ok u →
       ∃ adlist custom_filtering_rules,
         text = report_text adlist custom_filtering_rules).
Proof.
  rewrite report_stages.
  repeat
    match goal with
    | |- context [match ?r with Ok _ => _ | Raise _ => _ end] =>
        destruct r as [?|?]
    end;
    try (eexists (Raise _), ""; rewrite printed_nil;
         split_and!; [done|done|by intros]).
  eexists (Ok ()), _. split_and!; [done|by intros|].
  intros _ _. by do 2 eexists.
Qed.

Lemma main_readable (w : world) (prog archive_path : string)
    (members : gmap string file) :
  archives w !! archive_path = Some (TarGz members) →
  ∃ r text,
    report (fresh (dom (tmpdirs w)))
      (mkWorld (archives w)
               (<[fresh (dom (tmpdirs w)) := members]> (tmpdirs w))
               (stdout w))
    = (r, printed
            (mkWorld (archives w)
                     (<[fresh (dom (tmpdirs w)) := members]> (tmpdirs w))
                     (stdout w))
            text) ∧
    main [prog; archive_path] w = (r, printed w text).
Proof.
  intros Ha.
  destruct (report_outcome (fresh (dom (tmpdirs w)))
              (mkWorld (archives w)
                       (<[fresh (dom (tmpdirs w)) := members]> (tmpdirs w))
                       (stdout w)))
    as (r & text & Hreport & _).
  exists r, text. split; [done|].
  rewrite main_two_arguments. unfold mbind at 1, M_bind.
  rewrite (unzip_tar_gz_members w archive_path members Ha).
  unfold try_finally. rewrite Hreport. unfold rmtree, printed. cbn.
  rewrite lookup_insert_eq, delete_insert_eq.
  by rewrite delete_id by apply fresh_temp_dir.
Qed.

(** X3: after a run on a readable archive the temporary directories and
    the archives are what they were before, whether the report was
    printed or a reader or the filter raised. *)
Theorem main_restores_directories (w : world) (prog archive_path : string)
    (members : gmap string file) :
  archives w !! archive_path = Some (TarGz members) →
  tmpdirs (main [prog; archive_path] w).2 = tmpdirs w ∧
  archives (main [prog; archive_path] w).2 = archives w.
Proof.
  intros Ha.
  destruct (main_readable w prog archive_path members Ha)
    as (r & text & _ & ->).
  done.
Qed.




End convert_config.


(** ** Examples *)

Example truthy_values :
  truthy (JBool true) = true ∧ truthy (JInt 1) = true ∧
  truthy (JStr "no") = true ∧ truthy (JFloat 0.5) = true ∧
  truthy (JBool false) = false ∧ truthy (JInt 0) = false ∧
  truthy JNull = false ∧ truthy (JStr "") = false ∧
  truthy (JFloat 0) = false ∧ truthy (JArr []) = false.
Proof. by split_and!. Qed.

Example eq_one_values :
  eq_one (JInt 1) = true ∧ eq_one (JBool true) = true ∧
  eq_one (JFloat 1) = true ∧
  eq_one (JInt 0) = false ∧ eq_one (JInt 2) = false ∧
  eq_one (JBool false) = false ∧ eq_one (JStr "1") = false ∧
  eq_one JNull = false.
Proof. by split_and!. Qed.

Example replace_examples :
  replace "\/" "/" "a\\/b" = "a\/b" ∧
  replace "\/" "/" "\/\/" = "//" ∧
  replace "\/" "/" "no escape / here \" = "no escape / here \" ∧
  replace "aa" "b" "aaa" = "ba" ∧
  replace "" "-" "ab" = "-a-b-".
Proof. by split_and!. Qed.

(** The scenario of the specification: one live list, one list that is
    down, one disabled list, an exact whitelist entry and a regex
    blacklist entry.  The run prints the report and removes its
    directory. *)
Example report_of_example_archive :
  ∃ w',
    main str_scalar example_head
      ["convert_config.py"; "teleporter.tar.gz"] example_world = (Ok (), w') ∧
    tmpdirs w' = tmpdirs example_world ∧
    stdout w' =
      unlines
        [ "Add each of the following blocklist to the DNS blocklists page:";
          ""; "";
          "Name: live";
          "URL: https://example.com/list.txt";
          ""; ""; "";
          "Copy past this in the Custom filtering rules field:";
          ""; "";
          "! Whitelist";
          "# ok";
          "@@|good.com^";
          ""; "";
          "! Blacklist";
          "# spam";
          "/bad.*/";
          "" ].
Proof. eexists. split_and!; by vm_compute. Qed.

(** C1 with the template as drawn: on four empty sequences the template
    has one empty line between the two headers, the builder two. *)
Lemma template_block_differs_on_empty_input :
  build_custom_filtering_rules str_scalar [] [] [] []
  ≠ template_block str_scalar [] [] [] [].
Proof. vm_compute. discriminate. Qed.

Lemma build_custom_filtering_rules_deterministic_witness :
  build_custom_filtering_rules str_scalar [good_com] [] [] [bad_regex]
  = build_custom_filtering_rules str_scalar [good_com] [] [] [bad_regex]
  ∧ ∃ i j : nat, i < j ∧
      lines (build_custom_filtering_rules str_scalar
               [good_com] [] [] [bad_regex]) !! i = Some "! Whitelist" ∧
      lines (build_custom_filtering_rules str_scalar
               [good_com] [] [] [bad_regex]) !! j = Some "! Blacklist".
Proof.
  exact (build_custom_filtering_rules_deterministic str_scalar
           [good_com] [] [] [bad_regex] [good_com] [] [] [bad_regex]
           eq_refl eq_refl eq_refl eq_refl).
Defined.

Ltac complete_record :=
  eexists; split; [reflexivity|]; split_and!; eexists; reflexivity.

Lemma readers_keep_enabled_records_witness :
  tmpdirs example_world !! "/tmp/tmp_full" = Some example_files ∧
  (∃ out,
     read_adlist "/tmp/tmp_full" example_world = (Ok out, example_world) ∧
     Forall2 adlist_projection
       (List.filter (enabled_by truthy) example_adlist) out) ∧
  (∃ out,
     read_blacklist_regex "/tmp/tmp_full" example_world
       = (Ok out, example_world) ∧
     Forall2 domain_projection
       (List.filter (enabled_by eq_one) example_blacklist_regex) out).
Proof.
  destruct (readers_keep_enabled_records
              example_world "/tmp/tmp_full" example_files eq_refl)
    as (Hadlist & _ & _ & _ & Hregex).
  split_and!.
  - reflexivity.
  - apply (Hadlist example_adlist); [reflexivity|].
    repeat (constructor; [complete_record|]). constructor.
  - apply (Hregex example_blacklist_regex); [reflexivity|].
    repeat (constructor; [complete_record|]). constructor.
Defined.

Example read_adlist_example :
  read_adlist "/tmp/tmp_full" example_world
  = (Ok [live_list; lost_list], example_world).
Proof. by vm_compute. Qed.


Lemma filter_working_adlist_returns_input_entries_witness :
  filter_working_adlist example_head [live_list; moved_list; lost_list]
    = Ok [live_list] ∧
  address live_list = JStr "https:\/\/example.com\/list.txt" ∧
  sublist [live_list] [live_list; moved_list; lost_list] ∧
  (∀ e, e ∈ [live_list] →
     e ∈ [live_list; moved_list; lost_list] ∧
     test_url example_head (address e) = Ok true) ∧
  (∀ e s, e ∈ [live_list] → address e = JStr s →
     example_head (replace escaped_slash slash s) = Response 200).
Proof.
  split; [reflexivity|]. split; [reflexivity|].
  apply (filter_working_adlist_returns_input_entries example_head).
  reflexivity.
Defined.

(** C7 without the amendment: the only record of the list lacks
    [address] and [comment], and [read_adlist] returns the empty list. *)
Lemma disabled_record_without_address_is_skipped :
  ¬ (Exists (lacks_expected_key "address") sparse_adlist →
     raised (read_adlist "/tmp/tmp_sparse" example_world).1).
Proof.
  intros Hclaim. destruct Hclaim as [e He].
  - apply Exists_cons_hd. left. by exists (KeyError "address").
  - vm_compute in He. discriminate.
Qed.

Lemma readers_raise_at_stopping_records_witness :
  tmpdirs example_world !! "/tmp/tmp_sparse" = Some sparse_files ∧
  raises_at_stopping_records read_adlist "adlist.json" truthy "address"
    example_world "/tmp/tmp_sparse" sparse_files ∧
  raises_at_stopping_records read_whitelist_exact "whitelist.exact.json"
    eq_one "domain" example_world "/tmp/tmp_sparse" sparse_files ∧
  raises_at_stopping_records read_blacklist_exact "blacklist.exact.json"
    eq_one "domain" example_world "/tmp/tmp_sparse" sparse_files ∧
  raises_at_stopping_records read_whitelist_regex "whitelist.regex.json"
    eq_one "domain" example_world "/tmp/tmp_sparse" sparse_files ∧
  raises_at_stopping_records read_blacklist_regex "blacklist.regex.json"
    eq_one "domain" example_world "/tmp/tmp_sparse" sparse_files.
Proof.
  split; [reflexivity|].
  apply (readers_raise_at_stopping_records
           example_world "/tmp/tmp_sparse" sparse_files).
  reflexivity.
Defined.

Lemma unreadable_archive_leaves_temp_dir_witness :
  (archives example_world !! "missing.tar.gz" = None ∨
   archives example_world !! "missing.tar.gz" = Some NotTarGz) ∧
  ∃ e w',
    main str_scalar example_head
      ["convert_config.py"; "missing.tar.gz"] example_world = (Raise e, w') ∧
    tmpdirs example_world !! fresh (dom (tmpdirs example_world)) = None ∧
    tmpdirs w' !! fresh (dom (tmpdirs example_world)) = Some ∅.
Proof.
  split; [by left|].
  apply (unreadable_archive_leaves_temp_dir str_scalar example_head).
  by left.
Defined.

(** The same run, evaluated: the directory ["0"] has been made and is
    left behind, empty. *)
Example missing_archive_run :
  main str_scalar example_head
    ["convert_config.py"; "missing.tar.gz"] example_world
  = (Raise FileNotFoundError,
     mkWorld (archives example_world)
             (<["0" := ∅]> (tmpdirs example_world))
             "") ∧
  main str_scalar example_head
    ["convert_config.py"; "notes.txt"] example_world
  = (Raise ReadError,
     mkWorld (archives example_world)
             (<["0" := ∅]> (tmpdirs example_world))
             "").
Proof. split; by vm_compute. Qed.

Lemma missing_adlist_is_fatal_and_cleaned_up_witness :
  archives example_world !! "partial.tar.gz" = Some (TarGz partial_files) ∧
  partial_files !! "adlist.json" = None ∧
  ∃ w',
    main str_scalar example_head
      ["convert_config.py"; "partial.tar.gz"] example_world
      = (Raise FileNotFoundError, w') ∧
    stdout w' = "" ∧
    tmpdirs w' = tmpdirs example_world.
Proof.
  split; [reflexivity|]. split; [reflexivity|].
  destruct (missing_adlist_is_fatal_and_cleaned_up str_scalar example_head
              example_world "convert_config.py" "partial.tar.gz"
              partial_files eq_refl eq_refl)
    as [_ (w' & Hmain & _ & Hout & _ & Htmp)].
  exists w'. by split_and!.
Defined.

(** ** Examples of the further properties *)

Lemma main_usage_exit_witness :
  length ["convert_config.py"] ≠ 2 ∧
  main str_scalar example_head ["convert_config.py"] example_world
  = (Raise (SystemExit 1),
     printed example_world
       ("Usage: python3 convert_config.py <teleporter archive path>" +:+ LF)) ∧
  script str_scalar example_head ["convert_config.py"] example_world
  = (Raise (SystemExit 1),
     printed example_world
       ("Usage: python3 convert_config.py <teleporter archive path>" +:+ LF)).
Proof.
  split; [cbn; lia|].
  apply (main_usage_exit str_scalar example_head). cbn. lia.
Defined.

Lemma unzip_tar_gz_extracts_witness :
  archives example_world !! "teleporter.tar.gz" = Some (TarGz example_files) ∧
  ∃ temp_dir w1,
    unzip_tar_gz "teleporter.tar.gz" example_world = (Ok temp_dir, w1) ∧
    tmpdirs example_world !! temp_dir = None ∧
    tmpdirs w1 !! temp_dir = Some example_files ∧
    (∀ d, d ≠ temp_dir → tmpdirs w1 !! d = tmpdirs example_world !! d) ∧
    archives w1 = archives example_world ∧
    stdout w1 = stdout example_world.
Proof.
  split; [reflexivity|].
  apply (unzip_tar_gz_extracts example_world "teleporter.tar.gz").
  reflexivity.
Defined.

Lemma main_restores_directories_witness :
  archives example_world !! "sparse.tar.gz" = Some (TarGz sparse_files) ∧
  (main str_scalar example_head
     ["convert_config.py"; "sparse.tar.gz"] example_world).1
  = Raise FileNotFoundError ∧
  tmpdirs (main str_scalar example_head
             ["convert_config.py"; "sparse.tar.gz"] example_world).2
  = tmpdirs example_world ∧
  archives (main str_scalar example_head
              ["convert_config.py"; "sparse.tar.gz"] example_world).2
  = archives example_world.
Proof.
  split; [reflexivity|]. split; [by vm_compute|].
  apply (main_restores_directories str_scalar example_head
           example_world "convert_config.py" "sparse.tar.gz" sparse_files).
  reflexivity.
Defined.




Lemma readers_need_their_file_witness :
  tmpdirs example_world !! "/tmp/tmp_sparse" ≫= (.!! "whitelist.exact.json")
  = None ∧
  read_whitelist_exact "/tmp/tmp_sparse" example_world
  = (Raise FileNotFoundError, example_world) ∧
  tmpdirs example_world !! "/tmp/nowhere" ≫= (.!! "adlist.json") = None ∧
  read_adlist "/tmp/nowhere" example_world
  = (Raise FileNotFoundError, example_world).
Proof.
  destruct (readers_need_their_file example_world "/tmp/tmp_sparse")
    as (_ & Hwe & _).
  destruct (readers_need_their_file example_world "/tmp/nowhere")
    as (Ha & _).
  split_and!; [reflexivity|by apply Hwe|reflexivity|by apply Ha].
Defined.

Lemma readers_reject_other_documents_witness :
  tmpdirs odd_world !! "/tmp/tmp_odd" = Some odd_files ∧
  read_adlist "/tmp/tmp_odd" odd_world = (Raise TypeError, odd_world) ∧
  read_whitelist_exact "/tmp/tmp_odd" odd_world = (Ok [], odd_world) ∧
  read_blacklist_exact "/tmp/tmp_odd" odd_world = (Raise TypeError, odd_world) ∧
  read_whitelist_regex "/tmp/tmp_odd" odd_world = (Raise TypeError, odd_world) ∧
  read_blacklist_regex "/tmp/tmp_odd" odd_world = (Raise TypeError, odd_world).
Proof.
  destruct (readers_reject_other_documents odd_world "/tmp/tmp_odd" odd_files
              eq_refl) as (Ha & Hwe & Hbe & Hwr & Hbr).
  split_and!.
  - reflexivity.
  - by rewrite (Ha JNull eq_refl).
  - rewrite (Hwe (JObj ∅) eq_refl) by done. by vm_compute.
  - by rewrite (Hbe (JStr "[]") eq_refl).
  - by rewrite (Hwr (JInt 3) eq_refl).
  - rewrite (Hbr (JObj {[ "domain" := JStr "x" ]}) eq_refl) by done.
    by vm_compute.
Defined.


Lemma normalization_changes_escaped_addresses_witness :
  contains escaped_slash "https:\/\/example.com\/list.txt" = true ∧
  String.length
    (replace escaped_slash slash "https:\/\/example.com\/list.txt")
  < String.length "https:\/\/example.com\/list.txt" ∧
  contains escaped_slash "https://example.com/list.txt" = false ∧
  replace escaped_slash slash "https://example.com/list.txt"
  = "https://example.com/list.txt".
Proof.
  destruct (normalization_changes_escaped_addresses
              "https:\/\/example.com\/list.txt") as (_ & Hlt & _).
  destruct (normalization_changes_escaped_addresses
              "https://example.com/list.txt") as (Hid & _ & _).
  split_and!; [reflexivity|by apply Hlt|reflexivity|by apply Hid].
Defined.

Lemma build_custom_filtering_rules_lines_witness :
  Forall (single_line str_scalar) ([good_com] ++ [] ++ [] ++ [bad_regex]) ∧
  lines (build_custom_filtering_rules str_scalar
           [good_com] [] [] [bad_regex])
  = ["! Whitelist"; "# ok"; "@@|good.com^"; ""; "";
     "! Blacklist"; "# spam"; "/bad.*/"; ""] ∧
  length (lines (build_custom_filtering_rules str_scalar
                   [good_com] [] [] [bad_regex]))
  = 9.
Proof.
  assert (Forall (single_line str_scalar)
            ([good_com] ++ [] ++ [] ++ [bad_regex])) as Hsingle
    by (repeat constructor).
  split; [exact Hsingle|].
  exact (build_custom_filtering_rules_lines str_scalar
           [good_com] [] [] [bad_regex] Hsingle).
Defined.

Lemma build_custom_filtering_rules_line_count_witness :
  ¬ Forall (single_line str_scalar) ([] ++ [two_line_comment] ++ [] ++ []) ∧
  5 + 2 * 1
  < length (lines (build_custom_filtering_rules str_scalar
                     [] [two_line_comment] [] [])).
Proof.
  destruct (build_custom_filtering_rules_line_count str_scalar
              [] [two_line_comment] [] []) as [Hle Hiff].
  assert (¬ Forall (single_line str_scalar)
              ([] ++ [two_line_comment] ++ [] ++ [])) as Hnot.
  { intros H. apply Forall_cons in H as [[Hc _] _]. by vm_compute in Hc. }
  split; [exact Hnot|].
  cbn [length Nat.add] in Hle, Hiff.
  destruct (decide (length (lines (build_custom_filtering_rules str_scalar
                                     [] [two_line_comment] [] []))
                    = 5 + 2 * 1)) as [Heq|Hne].
  - destruct Hnot. by apply Hiff.
  - cbn [Nat.add Nat.mul] in *. lia.
Defined.
